(** * react-native-email-link (iOS): the mail-app registry, the resolver
      and the compose-URL builder of [src/index.ios.js]

    The development is a shallow embedding of the JavaScript module.
    - JavaScript values that the module reads or passes on are the flat type
      [jsval]: [undefined], [null], booleans, strings and the built-ins of
      [Object.prototype].  No option of the module is numeric, and the only
      number the module handles, the index of the pressed button, is an
      integer of [Z].
    - The three object literals [prefixes], [titles] and [uriParams] are
      association lists in declaration order, since [for ... in] and
      [Object.keys] enumerate them in that order.  Reading a member of an
      object literal falls back on [Object.prototype], as in JavaScript.
    - The caller's options bundle is a finite map from property names to
      values.
    - [Linking.canOpenURL], [Linking.openURL] and
      [ActionSheetIOS.showActionSheetWithOptions] belong to React Native, not
      to this module: they are variables of the section [EmailLink], and every
      call to one of them is recorded in a trace of [event]s.  Their promises
      settle: the probe answers a boolean or rejects, the launcher succeeds or
      rejects, and the sheet calls back with an index. *)

From Stdlib Require Import ZArith List.
From stdpp Require Import base strings list gmap.

(** ** JavaScript values *)

Inductive jsval : Type :=
| JUndefined
| JNull
| JBool (b : bool)
| JStr (s : string)
| JNative (name : string).
(* [JNative name] is the built-in that [Object.prototype] holds under
   [name] (a function, or the prototype object itself for [__proto__]). *)

#[global] Instance jsval_eq_dec : EqDecision jsval.
Proof. solve_decision. Defined.

(** ToBoolean. *)
Definition to_boolean (v : jsval) : bool :=
  match v with
  | JUndefined | JNull => false
  | JBool b => b
  | JStr s => negb (String.eqb s "")
  | JNative _ => true
  end.

(** [a || b] *)
Definition js_or (a b : jsval) : jsval := if to_boolean a then a else b.

(** [a === b] on the values of the model. *)
Definition strict_eq (a b : jsval) : bool := bool_decide (a = b).

(** The names that every object literal inherits from [Object.prototype]. *)
Definition object_prototype_names : list string :=
  [ "constructor"; "__defineGetter__"; "__defineSetter__"; "hasOwnProperty";
    "__lookupGetter__"; "__lookupSetter__"; "isPrototypeOf";
    "propertyIsEnumerable"; "toString"; "valueOf"; "__proto__";
    "toLocaleString" ].

Definition inherited (key : string) : bool :=
  bool_decide (key ∈ object_prototype_names).

(** Own property of an object literal, first match in declaration order. *)
Fixpoint own {A : Type} (obj : list (string * A)) (key : string) : option A :=
  match obj with
  | [] => None
  | (k, a) :: rest => if String.eqb k key then Some a else own rest key
  end.

(** [Object.keys(obj)], also the order of [for (k in obj)]. *)
Definition keys {A : Type} (obj : list (string * A)) : list string :=
  map fst obj.

(** [key in obj] for an object literal: own or inherited. *)
Definition js_in {A : Type} (key : string) (obj : list (string * A)) : bool :=
  match own obj key with
  | Some _ => true
  | None => inherited key
  end.

(** [obj[key]] for an object literal whose own values are strings. *)
Definition js_get (obj : list (string * string)) (key : string) : jsval :=
  match own obj key with
  | Some s => JStr s
  | None => if inherited key then JNative key else JUndefined
  end.

(** [options[key]] for the caller's bundle, a plain object. *)
Definition opt_get (options : gmap string jsval) (key : string) : jsval :=
  match options !! key with
  | Some v => v
  | None => if inherited key then JNative key else JUndefined
  end.

(** [key in options] *)
Definition opt_in (key : string) (options : gmap string jsval) : bool :=
  match options !! key with
  | Some _ => true
  | None => inherited key
  end.

(** [arr.indexOf(v)]: strict equality against each element, -1 when none. *)
Fixpoint indexOf (arr : list string) (v : jsval) : Z :=
  match arr with
  | [] => (-1)%Z
  | k :: rest =>
      if strict_eq (JStr k) v then 0%Z
      else let i := indexOf rest v in
           if (i <? 0)%Z then (-1)%Z else (i + 1)%Z
  end.

(** [arr[i]] for the number [i] *)
Definition at_index (arr : list string) (i : Z) : jsval :=
  if (i <? 0)%Z then JUndefined
  else match arr !! Z.to_nat i with
       | Some k => JStr k
       | None => JUndefined
       end.

(** ** The registry *)

Definition prefixes : list (string * string) :=
  [ ("apple-mail", "message://");
    ("gmail", "googlegmail://");
    ("inbox", "inbox-gmail://");
    ("spark", "readdle-spark://");
    ("airmail", "airmail://");
    ("outlook", "ms-outlook://") ].

Definition titles : list (string * string) :=
  [ ("apple-mail", "Mail");
    ("gmail", "Gmail");
    ("inbox", "Inbox");
    ("spark", "Spark");
    ("airmail", "Airmail");
    ("outlook", "Outlook") ].

Definition uriParams : list (string * list (string * string)) :=
  [ ("apple-mail",
      [ ("cc", "cc"); ("bcc", "bcc"); ("subject", "subject");
        ("body", "body") ]);
    ("gmail",
      [ ("path", "co"); ("to", "to"); ("cc", "cc"); ("bcc", "bcc");
        ("subject", "subject"); ("body", "body") ]);
    ("inbox",
      [ ("path", "co"); ("to", "to"); ("cc", "cc"); ("bcc", "bcc");
        ("subject", "subject"); ("body", "body") ]);
    ("spark",
      [ ("path", "compose"); ("to", "recipient"); ("cc", "cc");
        ("bcc", "bcc"); ("subject", "subject"); ("body", "body") ]);
    ("airmail",
      [ ("path", "compose"); ("to", "to"); ("cc", "cc"); ("bcc", "bcc");
        ("subject", "subject"); ("body", "htmlBody") ]);
    ("outlook",
      [ ("path", "compose"); ("to", "to"); ("cc", "cc"); ("bcc", "bcc");
        ("subject", "subject"); ("body", "body") ]) ].

(** ** Errors, events and the monad of the asynchronous functions *)

Inductive exn : Type :=
| EmailException (message : string)
| TypeError                 (* raised by the engine *)
| NativeError.              (* a rejection by React Native *)

Record sheet : Type := Sheet {
  sheet_options : list jsval;
  cancelButtonIndex : Z;
  sheet_text : option (jsval * jsval)   (* title and message, when kept *)
}.

Inductive event : Type :=
| CanOpenURL (url : jsval)
| ShowActionSheet (config : sheet)
| OpenURL (url : jsval).

Inductive settled (A : Type) : Type :=
| Resolved (a : A)
| Rejected (e : exn).
Arguments Resolved {A} a.
Arguments Rejected {A} e.

(** A run: the calls made to React Native, in order, and how the promise
    settles. *)
Definition run (A : Type) : Type := list event * settled A.

Definition ret {A} (a : A) : run A := ([], Resolved a).
Definition throw {A} (e : exn) : run A := ([], Rejected e).
Definition bind {A B} (m : run A) (f : A → run B) : run B :=
  match m with
  | (t, Resolved a) => let '(t', r) := f a in (t ++ t', r)
  | (t, Rejected e) => (t, Rejected e)
  end.

(** [promise.catch(handler)] *)
Definition catch {A} (m : run A) (handler : exn → run A) : run A :=
  match m with
  | (t, Resolved a) => (t, Resolved a)
  | (t, Rejected e) => let '(t', r) := handler e in (t ++ t', r)
  end.

Notation "'let!' x ':=' m 'in' k" := (bind m (fun x => k))
  (at level 10, x name, m at level 100, k at level 200, only parsing).

(** The argument that a caller passes as [options]: any value. *)
Inductive options_arg : Type :=
| OUndefined
| ONull
| OBool (b : bool)
| OStr (s : string)
| OFunction
| OObject (props : gmap string jsval).

(** ToBoolean of the argument. *)
Definition options_truthy (options : options_arg) : bool :=
  match options with
  | OUndefined | ONull => false
  | OBool b => b
  | OStr s => negb (String.eqb s "")
  | OFunction | OObject _ => true
  end.

(** [typeof options] *)
Definition typeof (options : options_arg) : string :=
  match options with
  | OUndefined => "undefined"
  | ONull | OObject _ => "object"
  | OBool _ => "boolean"
  | OStr _ => "string"
  | OFunction => "function"
  end.

(** The properties that reads of [options[key]] see once [getApp] has let
    the argument through (only an object gets that far). *)
Definition props_of (options : options_arg) : gmap string jsval :=
  match options with
  | OObject props => props
  | _ => ∅
  end.

(** A parameter with a default value: the default replaces [undefined]. *)
Definition default_to (d v : jsval) : jsval :=
  match v with
  | JUndefined => d
  | _ => v
  end.

Definition dquote : string := String (Ascii.ascii_of_nat 34) EmptyString.

Section EmailLink.

(** React Native, and the engine's rendering of a built-in as a string. *)
Variable canOpenURL : jsval → option bool.   (* [None]: the promise rejects *)
Variable showActionSheetWithOptions : sheet → Z.  (* index given to the callback *)
Variable openURL : jsval → bool.             (* [false]: the promise rejects *)
Variable native_source : string → string.

(** ToString, as a template literal applies it. *)
Definition to_string (v : jsval) : string :=
  match v with
  | JUndefined => "undefined"
  | JNull => "null"
  | JBool true => "true"
  | JBool false => "false"
  | JStr s => s
  | JNative name => native_source name
  end.

(** *** getUrlParams *)

(** The local [path] of [getUrlParams]. *)
Definition url_path (app : jsval) (appParms : list (string * string))
    (options : gmap string jsval) : jsval :=
  if strict_eq app (JStr "apple-mail")
  then js_or (opt_get options "to") (JStr "")
  else js_get appParms "path".

(** The local [urlParams]: the reduction over [Object.keys(appParms)]. *)
Definition url_params (appParms : list (string * string))
    (options : gmap string jsval) : list string :=
  fold_left
    (fun params currentParam =>
       if to_boolean (opt_get options currentParam)
       then params ++ [to_string (js_get appParms currentParam) +:+ "=" +:+
                       to_string (opt_get options currentParam)]
       else params)
    (keys appParms) [].

Definition getUrlParams (app : jsval) (options : gmap string jsval) : string :=
  match own uriParams (to_string app) with
  | Some appParms =>
      to_string (url_path app appParms options) +:+ "?" +:+
      String.concat "&" (url_params appParms options)
  | None =>
      if inherited (to_string app)
      then (* a built-in: no enumerable key, no [path] *)
        to_string JUndefined +:+ "?" +:+ String.concat "&" []
      else ""
  end.

(** *** isAppInstalled *)

Definition Linking_canOpenURL (url : jsval) : run bool :=
  ([CanOpenURL url],
   match canOpenURL url with
   | Some isSupported => Resolved isSupported
   | None => Rejected NativeError
   end).

Definition isAppInstalled (app : string) : run bool :=
  if negb (js_in app prefixes) then ret false
  else
    catch
      (let! isSupported := Linking_canOpenURL (js_get prefixes app) in
       ret isSupported)
      (fun _ => ret false).

(** *** askAppChoice *)

(** The loop [for (let app in prefixes)], from the keys still to visit and
    the [availableApps] collected so far. *)
Fixpoint collect_available (apps availableApps : list string)
    : run (list string) :=
  match apps with
  | [] => ret availableApps
  | app :: rest =>
      let! avail := isAppInstalled app in
      collect_available rest
        (if avail then availableApps ++ [app] else availableApps)
  end.

Definition ActionSheetIOS_show (config : sheet) : run Z :=
  ([ShowActionSheet config], Resolved (showActionSheetWithOptions config)).

Definition askAppChoice (title message cancelLabel removeText : jsval)
    : run jsval :=
  let title := default_to (JStr "Open mail app") title in
  let message := default_to (JStr "Which app would you like to open?") message in
  let cancelLabel := default_to (JStr "Cancel") cancelLabel in
  let removeText := default_to (JBool false) removeText in
  let! availableApps := collect_available (keys prefixes) [] in
  if (Z.of_nat (length availableApps) <? 2)%Z
  then ret (js_or (at_index availableApps 0) JNull)
  else
    let options := map (js_get titles) availableApps ++ [cancelLabel] in
    let! buttonIndex :=
      ActionSheetIOS_show
        {| sheet_options := options;
           cancelButtonIndex := Z.of_nat (length options) - 1;
           sheet_text :=
             if to_boolean removeText then None else Some (title, message) |} in
    if (buttonIndex =? Z.of_nat (length options) - 1)%Z
    then ret JNull
    else ret (at_index availableApps buttonIndex).

(** *** getApp *)

Definition not_an_object_message : string :=
  "First parameter must be an object of options.".

Definition unknown_app_message : string :=
  "Option `app` should be undefined, null, or one of the following: " +:+
  dquote +:+ String.concat (dquote +:+ ", " +:+ dquote) (keys prefixes) +:+
  dquote +:+ ".".

Definition no_app_message : string := "No email app found".

Definition getApp (options : options_arg) : run jsval :=
  if options_truthy options && negb (String.eqb (typeof options) "object")
  then throw (EmailException not_an_object_message)
  else
    match options with
    | OObject props =>
        if opt_in "app" props && to_boolean (opt_get props "app") &&
           (indexOf (keys prefixes) (opt_get props "app") <? 0)%Z
        then throw (EmailException unknown_app_message)
        else
          let app := default_to JNull (opt_get props "app") in
          let! app :=
            (if negb (to_boolean app)
             then askAppChoice (opt_get props "title") (opt_get props "message")
                    (opt_get props "cancelLabel") (opt_get props "removeText")
             else ret app) in
          if negb (to_boolean app)
          then throw (EmailException no_app_message)
          else ret app
    | _ =>
        (* ['app' in options] with a right operand that is not an object *)
        throw TypeError
    end.

(** *** openInbox and openComposer *)

Definition Linking_openURL (url : jsval) : run unit :=
  ([OpenURL url],
   if openURL url then Resolved tt else Rejected NativeError).

Definition openInbox (options : options_arg) : run unit :=
  let! app := getApp options in
  Linking_openURL (js_get prefixes (to_string app)).

Definition openComposer (options : options_arg) : run unit :=
  let! app := getApp options in
  let params := getUrlParams app (props_of options) in
  let prefix := js_get prefixes (to_string app) in
  let prefix :=
    if strict_eq app (JStr "apple-mail") then JStr "mailto:" else prefix in
  Linking_openURL (JStr (to_string prefix +:+ params)).

End EmailLink.

Arguments opt_get : simpl never.
Arguments to_string : simpl nomatch.

(** * The behaviour the specification describes *)

Section Specification.

Variable canOpenURL : jsval → option bool.
Variable native_source : string → string.

Definition compose_fields : list string := ["to"; "cc"; "bcc"; "subject"; "body"].

(** A field is supplied with a non-empty value when the value is not absent
    (missing or [undefined]), not [null] and not empty: JavaScript's
    truthiness, which for a string is non-emptiness. *)
Definition supplied (options : gmap string jsval) (field : string) : bool :=
  to_boolean (opt_get options field).

Definition spec_pairs (dialect : list (string * string))
    (options : gmap string jsval) : list string :=
  flat_map
    (fun field =>
       match own dialect field with
       | Some key =>
           if supplied options field
           then [key +:+ "=" +:+ to_string native_source (opt_get options field)]
           else []
       | None => []
       end)
    compose_fields.

Definition spec_path (app : string) (dialect : list (string * string))
    (options : gmap string jsval) : string :=
  if String.eqb app "apple-mail"
  then (if supplied options "to"
        then to_string native_source (opt_get options "to") else "")
  else default "" (own dialect "path").

Definition spec_buildComposeUrl (app : string)
    (dialect : list (string * string)) (options : gmap string jsval) : string :=
  spec_path app dialect options +:+ "?" +:+
  String.concat "&" (spec_pairs dialect options).

(** An app probes as installed when the probe of its scheme answers yes; a
    rejected probe counts as no. *)
Definition installed (app : string) : bool :=
  match own prefixes app with
  | Some scheme => default false (canOpenURL (JStr scheme))
  | None => false
  end.

(** The installed apps, in registry-declaration order. *)
Definition installed_apps : list string := List.filter installed (keys prefixes).

(** One probe per registered app, in registry-declaration order. *)
Definition probes : list event :=
  map (fun app => CanOpenURL (JStr (default "" (own prefixes app)))) (keys prefixes).

(** The display title of a registered app. *)
Definition title_of (app : string) : jsval := JStr (default "" (own titles app)).

(** The sheet shown to the user: the installed apps' titles in registry
    order, then the cancel label; the cancel entry is the last one; title and
    message are left out when [removeText] holds. *)
Definition picker_sheet (title message cancelLabel removeText : jsval) : sheet :=
  {| sheet_options :=
       map title_of installed_apps ++ [default_to (JStr "Cancel") cancelLabel];
     cancelButtonIndex := Z.of_nat (length installed_apps);
     sheet_text :=
       if to_boolean (default_to (JBool false) removeText) then None
       else Some (default_to (JStr "Open mail app") title,
                  default_to (JStr "Which app would you like to open?") message) |}.

(** The sheet for the text options of the caller's bundle. *)
Definition options_sheet (props : gmap string jsval) : sheet :=
  picker_sheet (opt_get props "title") (opt_get props "message")
    (opt_get props "cancelLabel") (opt_get props "removeText").

(** No explicit app: the [app] property is absent, [undefined], [null] or
    the empty string (any falsy value). *)
Definition no_explicit_app (props : gmap string jsval) : Prop :=
  to_boolean (opt_get props "app") = false.

(** How the launcher's promise settles for a URL. *)
Definition launched (openURL : jsval → bool) (url : jsval) : settled unit :=
  if openURL url then Resolved tt else Rejected NativeError.

Definition is_launch (e : event) : Prop :=
  match e with
  | OpenURL _ => True
  | _ => False
  end.

Definition is_picker (e : event) : Prop :=
  match e with
  | ShowActionSheet _ => True
  | _ => False
  end.

End Specification.

(** ** Collaborators for the examples *)

(** A device on which exactly the apps with the given schemes are installed. *)
Definition device (schemes : list string) : jsval → option bool :=
  fun url => Some (bool_decide (url ∈ map JStr schemes)).

(** A device whose probe always rejects. *)
Definition broken_probe : jsval → option bool := fun _ => None.

(** A user who presses the button with the given index. *)
Definition presses (buttonIndex : Z) : sheet → Z := fun _ => buttonIndex.

(** A launcher that succeeds. *)
Definition launches : jsval → bool := fun _ => true.

Definition no_source : string → string := fun _ => "".

(** * Facts about the tables and the JavaScript operations *)

Lemma own_elem_of {A} (obj : list (string * A)) key a :
  own obj key = Some a → (key, a) ∈ obj.
Proof.
  induction obj as [|[k b] rest IH]; simpl; [done|].
  destruct (String.eqb_spec k key) as [->|_].
  - intros [= ->]. left.
  - intros H. right. auto.
Qed.

Lemma own_keys {A} (obj : list (string * A)) key :
  key ∈ keys obj → is_Some (own obj key).
Proof.
  induction obj as [|[k b] rest IH]; simpl.
  - intros H. by apply elem_of_nil in H.
  - intros H. destruct (String.eqb_spec k key) as [->|Hne]; [by eexists|].
    apply elem_of_cons in H as [->|H]; [done|auto].
Qed.

Lemma to_boolean_JStr s : to_boolean (JStr s) = true ↔ s ≠ "".
Proof.
  simpl. destruct (String.eqb_spec s ""); simpl; split; congruence.
Qed.

Lemma strict_eq_true a b : strict_eq a b = true ↔ a = b.
Proof. unfold strict_eq. apply bool_decide_eq_true. Qed.

(** A non-negative [indexOf] finds a string of the array. *)
Lemma indexOf_found arr v :
  (indexOf arr v <? 0)%Z = false → ∃ k, v = JStr k ∧ k ∈ arr.
Proof.
  induction arr as [|k rest IH]; simpl; [done|].
  destruct (strict_eq (JStr k) v) eqn:E.
  - apply strict_eq_true in E as <-. intros _. exists k. split; [done|left].
  - destruct (indexOf rest v <? 0)%Z eqn:E'; [done|].
    intros _. destruct IH as (k' & -> & Hin); [done|].
    exists k'. split; [done|by right].
Qed.

Lemma indexOf_member arr k : k ∈ arr → (indexOf arr (JStr k) <? 0)%Z = false.
Proof.
  induction arr as [|k' rest IH]; simpl.
  - intros H. by apply elem_of_nil in H.
  - intros H. destruct (strict_eq (JStr k') (JStr k)) eqn:E; [done|].
    apply elem_of_cons in H as [->|H].
    + unfold strict_eq in E. by rewrite bool_decide_eq_false in E.
    + rewrite (IH H). apply Z.ltb_ge. apply Z.ltb_ge in IH; [lia|done].
Qed.

Lemma at_index_cases arr i :
  at_index arr i = JUndefined ∨ ∃ k, at_index arr i = JStr k ∧ k ∈ arr.
Proof.
  unfold at_index. destruct (i <? 0)%Z; [by left|].
  destruct (arr !! Z.to_nat i) as [k|] eqn:E; [|by left].
  right. exists k. split; [done|]. by eapply list_elem_of_lookup_2.
Qed.

Ltac each_entry H :=
  apply own_elem_of in H;
  repeat (apply elem_of_cons in H as [H|H]; [injection H as -> ->|]);
  [..|by apply elem_of_nil in H].

(** * The URL builder *)

Section Builder.

Variable ns : string → string.   (* the engine's rendering of built-ins *)

(** The reduction of [getUrlParams] visits the dialect's keys in order and
    appends at most one pair per key. *)
Lemma url_params_flat_map (appParms : list (string * string)) options :
  url_params ns appParms options =
  flat_map
    (fun currentParam =>
       if to_boolean (opt_get options currentParam)
       then [to_string ns (js_get appParms currentParam) +:+ "=" +:+
             to_string ns (opt_get options currentParam)]
       else [])
    (keys appParms).
Proof.
  unfold url_params.
  enough (∀ ks params,
    fold_left
      (fun params currentParam =>
         if to_boolean (opt_get options currentParam)
         then params ++ [to_string ns (js_get appParms currentParam) +:+ "=" +:+
                         to_string ns (opt_get options currentParam)]
         else params) ks params =
    params ++
    flat_map
      (fun currentParam =>
         if to_boolean (opt_get options currentParam)
         then [to_string ns (js_get appParms currentParam) +:+ "=" +:+
               to_string ns (opt_get options currentParam)]
         else []) ks) as H by apply H.
  induction ks as [|currentParam rest IH]; intros params; simpl.
  - by rewrite app_nil_r.
  - rewrite IH.
    destruct (to_boolean (opt_get options currentParam)); simpl;
      by rewrite <- ?app_assoc.
Qed.

Lemma getUrlParams_own app appParms options :
  own uriParams app = Some appParms →
  getUrlParams ns (JStr app) options =
  to_string ns (url_path (JStr app) appParms options) +:+ "?" +:+
  String.concat "&" (url_params ns appParms options).
Proof.
  intros H. unfold getUrlParams. simpl to_string at 1. by rewrite H.
Qed.

(** C1 (amended): for every app with a dialect entry and every options
    bundle that supplies no non-empty [path] property when the dialect has a
    [path] entry, [getUrlParams] is the builder of the specification: one
    [key=value] pair for each field among to, cc, bcc, subject, body that the
    dialect defines and the bundle supplies with a non-empty value, with the
    dialect's key and the value as it is, no pair for the other fields, the
    pairs joined with [&] after [<path>?]. *)
Theorem C1_getUrlParams_spec app dialect options :
  own uriParams app = Some dialect →
  (is_Some (own dialect "path") → supplied options "path" = false) →
  getUrlParams ns (JStr app) options = spec_buildComposeUrl ns app dialect options.
Proof.
  intros Hd Hp. rewrite (getUrlParams_own _ _ _ Hd), url_params_flat_map.
  unfold supplied in Hp.
  each_entry Hd; unfold spec_buildComposeUrl, spec_path, spec_pairs, supplied,
    url_path, js_or; simpl;
    try (rewrite Hp by (by eexists)); simpl;
    rewrite ?app_nil_r; try reflexivity.
  by destruct (to_boolean (opt_get options "to")).
Qed.

(** C2: for apple-mail the path segment of [getUrlParams] is the value of
    [options.to] as it is (the empty string when it is absent or empty) and
    the query holds pairs for cc, bcc, subject and body only, never a [to]
    key; for every other app with a dialect the path segment is the
    dialect's fixed [path]. *)
Theorem C2_path_segment app dialect options :
  own uriParams app = Some dialect →
  (app = "apple-mail" →
     getUrlParams ns (JStr app) options =
     (if supplied options "to" then to_string ns (opt_get options "to") else "")
     +:+ "?" +:+
     String.concat "&"
       (flat_map
          (fun field =>
             if supplied options field
             then [field +:+ "=" +:+ to_string ns (opt_get options field)]
             else [])
          ["cc"; "bcc"; "subject"; "body"]))
  ∧ (app ≠ "apple-mail" →
     ∃ path, own dialect "path" = Some path ∧
       getUrlParams ns (JStr app) options =
       path +:+ "?" +:+ String.concat "&" (url_params ns dialect options)).
Proof.
  intros Hd. rewrite (getUrlParams_own _ _ _ Hd).
  split.
  - intros ->. injection Hd as <-.
    rewrite url_params_flat_map. unfold url_path, js_or, supplied. simpl.
    by destruct (to_boolean (opt_get options "to")).
  - intros Hne. each_entry Hd; try done; eexists; (split; [reflexivity|]);
      reflexivity.
Qed.

End Builder.

(** * The availability prober and the resolver *)

Section Resolver.

Variable canOpenURL : jsval → option bool.
Variable showActionSheetWithOptions : sheet → Z.
Variable openURL : jsval → bool.
Variable ns : string → string.

Lemma isAppInstalled_known app scheme :
  own prefixes app = Some scheme →
  isAppInstalled canOpenURL app =
  ([CanOpenURL (JStr scheme)], Resolved (installed canOpenURL app)).
Proof.
  intros H. unfold isAppInstalled, js_in, js_get, installed. rewrite H. simpl.
  by destruct (canOpenURL (JStr scheme)).
Qed.

(** The loop of [askAppChoice] probes each key once, in order, and keeps the
    apps whose probe answers yes. *)
Lemma collect_available_spec apps availableApps :
  (∀ app, app ∈ apps → is_Some (own prefixes app)) →
  collect_available canOpenURL apps availableApps =
  (map (fun app => CanOpenURL (JStr (default "" (own prefixes app)))) apps,
   Resolved (availableApps ++ List.filter (installed canOpenURL) apps)).
Proof.
  revert availableApps.
  induction apps as [|a rest IH]; intros availableApps Hkeys;
    cbn [collect_available map List.filter].
  - unfold ret. by rewrite app_nil_r.
  - destruct (Hkeys a) as [scheme Hs]; [left|].
    rewrite (isAppInstalled_known _ _ Hs). cbn [bind].
    rewrite IH by (intros a' Ha; apply Hkeys; by right).
    rewrite Hs. cbn [default from_option id app].
    destruct (installed canOpenURL a); by rewrite <- ?app_assoc.
Qed.

Lemma collect_available_keys :
  collect_available canOpenURL (keys prefixes) [] =
  (probes, Resolved (installed_apps canOpenURL)).
Proof. apply collect_available_spec. intros app. apply own_keys. Qed.

Lemma installed_apps_keys app :
  app ∈ installed_apps canOpenURL → app ∈ keys prefixes.
Proof.
  unfold installed_apps. rewrite !list_elem_of_In, filter_In. tauto.
Qed.

Lemma probes_list :
  probes =
  [ CanOpenURL (JStr "message://"); CanOpenURL (JStr "googlegmail://");
    CanOpenURL (JStr "inbox-gmail://"); CanOpenURL (JStr "readdle-spark://");
    CanOpenURL (JStr "airmail://"); CanOpenURL (JStr "ms-outlook://") ].
Proof. reflexivity. Qed.

Lemma probes_no_launch : Forall (fun e => ¬ is_launch e) probes.
Proof. unfold probes. apply Forall_map, Forall_forall. intros ? _ []. Qed.

Lemma probes_no_picker : Forall (fun e => ¬ is_picker e) probes.
Proof. unfold probes. apply Forall_map, Forall_forall. intros ? _ []. Qed.

(** [askAppChoice] with fewer than two installed apps: no sheet. *)
Lemma askAppChoice_few title message cancelLabel removeText :
  length (installed_apps canOpenURL) < 2 →
  askAppChoice canOpenURL showActionSheetWithOptions
    title message cancelLabel removeText =
  (probes, Resolved (js_or (at_index (installed_apps canOpenURL) 0) JNull)).
Proof.
  intros Hlen. unfold askAppChoice. rewrite collect_available_keys.
  cbn [bind].
  destruct (Z.ltb_spec (Z.of_nat (length (installed_apps canOpenURL))) 2);
    [|lia].
  unfold ret. by rewrite app_nil_r.
Qed.

Lemma titles_of_keys apps :
  (∀ app, app ∈ apps → app ∈ keys prefixes) →
  map (js_get titles) apps = map title_of apps.
Proof.
  intros H. apply map_ext_in. intros app Hin.
  apply list_elem_of_In, H in Hin.
  unfold title_of, js_get.
  repeat (apply elem_of_cons in Hin as [->|Hin]; [reflexivity|]).
  by apply elem_of_nil in Hin.
Qed.

(** [askAppChoice] with two or more installed apps: the sheet, then the app
    at the chosen index, or [null] on the cancel index. *)
Lemma askAppChoice_many title message cancelLabel removeText :
  2 ≤ length (installed_apps canOpenURL) →
  let config := picker_sheet canOpenURL title message cancelLabel removeText in
  let buttonIndex := showActionSheetWithOptions config in
  askAppChoice canOpenURL showActionSheetWithOptions
    title message cancelLabel removeText =
  (probes ++ [ShowActionSheet config],
   Resolved (if (buttonIndex =? cancelButtonIndex config)%Z then JNull
             else at_index (installed_apps canOpenURL) buttonIndex)).
Proof.
  intros Hlen config buttonIndex. unfold askAppChoice.
  rewrite collect_available_keys. cbn [bind].
  destruct (Z.ltb_spec (Z.of_nat (length (installed_apps canOpenURL))) 2);
    [lia|].
  rewrite titles_of_keys by apply installed_apps_keys.
  replace (Z.of_nat (length (map title_of (installed_apps canOpenURL) ++
             [default_to (JStr "Cancel") cancelLabel])) - 1)%Z
    with (Z.of_nat (length (installed_apps canOpenURL)))
    by (rewrite length_app, length_map; simpl; lia).
  subst buttonIndex config.
  unfold picker_sheet, ActionSheetIOS_show. cbn [bind cancelButtonIndex].
  by destruct (_ =? _)%Z; unfold ret; rewrite app_nil_r.
Qed.

Ltac run_step :=
  cbn [bind ret throw negb to_boolean js_or]; rewrite ?app_nil_r; try reflexivity.

Lemma key_truthy name : name ∈ keys prefixes → to_boolean (JStr name) = true.
Proof.
  intros H.
  repeat (apply elem_of_cons in H as [->|H]; [reflexivity|]).
  by apply elem_of_nil in H.
Qed.

Lemma opt_get_truthy_in props key :
  to_boolean (opt_get props key) = true → opt_in key props = true.
Proof.
  unfold opt_get, opt_in. destruct (props !! key); [done|].
  by destruct (inherited key).
Qed.

Lemma to_boolean_default_null v :
  to_boolean (default_to JNull v) = to_boolean v.
Proof. by destruct v. Qed.

Lemma default_null_truthy v : to_boolean v = true → default_to JNull v = v.
Proof. by destruct v. Qed.

(** [getApp] on an object, as the source has it. *)
Lemma getApp_object props :
  getApp canOpenURL showActionSheetWithOptions (OObject props) =
  if opt_in "app" props && to_boolean (opt_get props "app") &&
     (indexOf (keys prefixes) (opt_get props "app") <? 0)%Z
  then throw (EmailException unknown_app_message)
  else
    bind
      (if negb (to_boolean (default_to JNull (opt_get props "app")))
       then askAppChoice canOpenURL showActionSheetWithOptions
              (opt_get props "title") (opt_get props "message")
              (opt_get props "cancelLabel") (opt_get props "removeText")
       else ret (default_to JNull (opt_get props "app")))
      (fun app => if negb (to_boolean app)
                  then throw (EmailException no_app_message)
                  else ret app).
Proof. reflexivity. Qed.

(** An explicit, registered app is returned at once. *)
Lemma getApp_explicit props name :
  opt_get props "app" = JStr name → name ∈ keys prefixes →
  getApp canOpenURL showActionSheetWithOptions (OObject props) =
  ([], Resolved (JStr name)).
Proof.
  intros Happ Hkey. rewrite getApp_object, Happ.
  rewrite (indexOf_member _ _ Hkey), andb_false_r.
  cbn [default_to]. rewrite (key_truthy _ Hkey).
  cbn [negb bind ret]. by rewrite (key_truthy _ Hkey).
Qed.


(** An explicit value that is no registered app is refused at once. *)
Lemma getApp_unknown_app props :
  to_boolean (opt_get props "app") = true →
  (∀ name, name ∈ keys prefixes → opt_get props "app" ≠ JStr name) →
  getApp canOpenURL showActionSheetWithOptions (OObject props) =
  ([], Rejected (EmailException unknown_app_message)).
Proof.
  intros Ht Hunknown. rewrite getApp_object, Ht, (opt_get_truthy_in _ _ Ht).
  destruct (indexOf (keys prefixes) (opt_get props "app") <? 0)%Z eqn:E;
    [reflexivity|].
  apply indexOf_found in E as (name & Hname & Hkey).
  by destruct (Hunknown name Hkey).
Qed.

(** Without an explicit app, [getApp] is [askAppChoice] followed by the
    check of its answer. *)
Lemma getApp_no_explicit props :
  no_explicit_app props →
  getApp canOpenURL showActionSheetWithOptions (OObject props) =
  bind
    (askAppChoice canOpenURL showActionSheetWithOptions
       (opt_get props "title") (opt_get props "message")
       (opt_get props "cancelLabel") (opt_get props "removeText"))
    (fun app => if negb (to_boolean app)
                then throw (EmailException no_app_message)
                else ret app).
Proof.
  unfold no_explicit_app. intros H.
  by rewrite getApp_object, to_boolean_default_null, H, andb_false_r.
Qed.

(** Fewer than two installed apps: the first one, or the failure. *)
Lemma getApp_few props :
  no_explicit_app props → length (installed_apps canOpenURL) < 2 →
  getApp canOpenURL showActionSheetWithOptions (OObject props) =
  (probes,
   match installed_apps canOpenURL with
   | [] => Rejected (EmailException no_app_message)
   | app :: _ => Resolved (JStr app)
   end).
Proof.
  intros Hno Hlen. rewrite (getApp_no_explicit _ Hno), askAppChoice_few by done.
  pose proof installed_apps_keys as Hkeys.
  destruct (installed_apps canOpenURL) as [|app rest].
  - change (at_index [] 0) with JUndefined. run_step.
  - change (at_index (app :: rest) 0) with (JStr app).
    unfold js_or. rewrite (key_truthy app) by (apply Hkeys; left).
    cbn [bind]. rewrite (key_truthy app) by (apply Hkeys; left). run_step.
Qed.

(** Two or more installed apps: the sheet, then the chosen app or the
    failure. *)
Lemma getApp_many props :
  no_explicit_app props → 2 ≤ length (installed_apps canOpenURL) →
  let config := options_sheet canOpenURL props in
  let buttonIndex := showActionSheetWithOptions config in
  getApp canOpenURL showActionSheetWithOptions (OObject props) =
  (probes ++ [ShowActionSheet config],
   if (buttonIndex =? cancelButtonIndex config)%Z
   then Rejected (EmailException no_app_message)
   else match at_index (installed_apps canOpenURL) buttonIndex with
        | JStr app => Resolved (JStr app)
        | _ => Rejected (EmailException no_app_message)
        end).
Proof.
  intros Hno Hlen config buttonIndex.
  rewrite (getApp_no_explicit _ Hno), askAppChoice_many by done.
  fold (options_sheet canOpenURL props). fold config. fold buttonIndex.
  cbn [bind].
  destruct (buttonIndex =? cancelButtonIndex config)%Z.
  - run_step.
  - destruct (at_index_cases (installed_apps canOpenURL) buttonIndex)
      as [->|(app & -> & Hin)].
    + run_step.
    + rewrite (key_truthy app) by by apply installed_apps_keys. run_step.
Qed.

Lemma at_index_lookup (arr : list string) (i : nat) app :
  arr !! i = Some app → at_index arr (Z.of_nat i) = JStr app.
Proof.
  intros H. unfold at_index.
  destruct (Z.ltb_spec (Z.of_nat i) 0); [lia|].
  by rewrite Nat2Z.id, H.
Qed.

(** Whatever [getApp] returns is the name of a registry entry, the argument
    was an object, and the launcher has not been called yet. *)
Lemma getApp_resolved options t app :
  getApp canOpenURL showActionSheetWithOptions options = (t, Resolved app) →
  ∃ props name scheme,
    options = OObject props ∧ app = JStr name ∧
    name ∈ keys prefixes ∧ own prefixes name = Some scheme ∧
    Forall (fun e => ¬ is_launch e) t.
Proof.
  intros H.
  assert (∀ name, name ∈ keys prefixes →
            ∃ scheme, own prefixes name = Some scheme) as Hscheme
    by (intros name Hk; by apply own_keys).
  destruct options as [| |b|s| |props];
    try discriminate H;
    try (destruct b; discriminate H);
    try (unfold getApp in H; cbn [options_truthy typeof] in H;
         destruct (negb (String.eqb s "")); discriminate H).
  exists props.
  destruct (to_boolean (opt_get props "app")) eqn:Ht.
  - destruct (indexOf (keys prefixes) (opt_get props "app") <? 0)%Z eqn:E.
    { rewrite getApp_object, Ht, (opt_get_truthy_in _ _ Ht), E in H.
      discriminate H. }
    apply indexOf_found in E as (name & Hname & Hkey).
    rewrite (getApp_explicit _ _ Hname Hkey) in H. injection H as <- <-.
    destruct (Hscheme _ Hkey) as [scheme Hs]. by exists name, scheme.
  - destruct (Nat.lt_ge_cases (length (installed_apps canOpenURL)) 2)
      as [Hlen|Hlen].
    + rewrite (getApp_few _ Ht Hlen) in H.
      pose proof installed_apps_keys as Hkeys.
      destruct (installed_apps canOpenURL) as [|name rest];
        [discriminate H|].
      injection H as <- <-.
      destruct (Hscheme name) as [scheme Hs]; [apply Hkeys; left|].
      exists name, scheme.
      split_and!; [done..|apply Hkeys; left|done|apply probes_no_launch].
    + rewrite (getApp_many _ Ht Hlen) in H.
      destruct (_ =? _)%Z; [discriminate H|].
      destruct (at_index_cases (installed_apps canOpenURL)
                  (showActionSheetWithOptions (options_sheet canOpenURL props)))
        as [E|(name & E & Hin)]; rewrite E in H; [discriminate H|].
      injection H as <- <-.
      apply installed_apps_keys in Hin.
      destruct (Hscheme _ Hin) as [scheme Hs].
      exists name, scheme. split_and!; [done..|].
      repeat first [apply Forall_nil_2 | apply Forall_cons_2; [intros []|]].
Qed.

Lemma strict_eq_JStr a b : strict_eq (JStr a) (JStr b) = String.eqb a b.
Proof.
  unfold strict_eq. destruct (String.eqb_spec a b) as [->|Hne].
  - by apply bool_decide_eq_true.
  - apply bool_decide_eq_false. congruence.
Qed.

Lemma js_get_own obj key s : own obj key = Some s → js_get obj key = JStr s.
Proof. intros H. unfold js_get. by rewrite H. Qed.

(** An id that is neither registered nor inherited is not probed. *)
Lemma isAppInstalled_unknown app :
  js_in app prefixes = false →
  isAppInstalled canOpenURL app = ([], Resolved false).
Proof. intros H. unfold isAppInstalled. by rewrite H. Qed.

(** What both top-level operations do after a resolution. *)
Lemma openInbox_resolved options t name scheme :
  getApp canOpenURL showActionSheetWithOptions options = (t, Resolved (JStr name)) →
  own prefixes name = Some scheme →
  openInbox canOpenURL showActionSheetWithOptions openURL ns options =
  (t ++ [OpenURL (JStr scheme)], launched openURL (JStr scheme)).
Proof.
  intros H Hs. unfold openInbox. rewrite H. cbn [bind to_string].
  by rewrite (js_get_own _ _ _ Hs).
Qed.

Lemma openComposer_resolved props t name scheme :
  getApp canOpenURL showActionSheetWithOptions (OObject props) =
    (t, Resolved (JStr name)) →
  own prefixes name = Some scheme →
  let url :=
    JStr ((if String.eqb name "apple-mail" then "mailto:" else scheme) +:+
          getUrlParams ns (JStr name) props) in
  openComposer canOpenURL showActionSheetWithOptions openURL ns (OObject props) =
  (t ++ [OpenURL url], launched openURL url).
Proof.
  intros H Hs. unfold openComposer. rewrite H.
  cbn [bind to_string props_of]. rewrite (js_get_own _ _ _ Hs), strict_eq_JStr.
  by destruct (String.eqb name "apple-mail").
Qed.

Lemma openInbox_rejected options t e :
  getApp canOpenURL showActionSheetWithOptions options = (t, Rejected e) →
  openInbox canOpenURL showActionSheetWithOptions openURL ns options =
  (t, Rejected e).
Proof. intros H. unfold openInbox. by rewrite H. Qed.

Lemma openComposer_rejected options t e :
  getApp canOpenURL showActionSheetWithOptions options = (t, Rejected e) →
  openComposer canOpenURL showActionSheetWithOptions openURL ns options =
  (t, Rejected e).
Proof. intros H. unfold openComposer. by rewrite H. Qed.

(** C3: when the bundle names a registered app, [getApp] returns it with
    an empty trace: no probe, no sheet, whatever the device answers. *)
Theorem C3_explicit_app_no_probe props name :
  props !! "app" = Some (JStr name) → name ∈ keys prefixes →
  getApp canOpenURL showActionSheetWithOptions (OObject props) =
  ([], Resolved (JStr name)).
Proof.
  intros Happ Hkey. apply getApp_explicit; [|done].
  unfold opt_get. by rewrite Happ.
Qed.

(** C4 (what the code does where the claim fails): the guard of [getApp]
    lets the falsy arguments through, and the test ['app' in options] then
    raises a TypeError, not the exception of the module. *)
Theorem C4_falsy_argument_TypeError :
  getApp canOpenURL showActionSheetWithOptions OUndefined = ([], Rejected TypeError)
  ∧ getApp canOpenURL showActionSheetWithOptions ONull = ([], Rejected TypeError)
  ∧ getApp canOpenURL showActionSheetWithOptions (OBool false) =
      ([], Rejected TypeError)
  ∧ getApp canOpenURL showActionSheetWithOptions (OStr "") =
      ([], Rejected TypeError).
Proof. done. Qed.

(** C5 (what the code does where the claim fails): [toString] is no
    registered app, yet ['toString' in prefixes] holds through
    [Object.prototype], so the probe is called, with the built-in function as
    its argument, and its answer is returned. *)
Theorem C5_inherited_name_is_probed :
  own prefixes "toString" = None
  ∧ isAppInstalled canOpenURL "toString" =
    ([CanOpenURL (JNative "toString")],
     Resolved (default false (canOpenURL (JNative "toString")))).
Proof.
  split; [done|]. unfold isAppInstalled.
  change (js_in "toString" prefixes) with true.
  change (js_get prefixes "toString") with (JNative "toString").
  cbn [negb]. unfold Linking_canOpenURL, catch, bind.
  by destruct (canOpenURL (JNative "toString")).
Qed.

(** C6: without an explicit app, when exactly one registered app probes as
    installed [getApp] returns it after the probes alone (no sheet is
    shown); when none does, [openInbox] and [openComposer] fail with the
    no-app error. *)
Theorem C6_one_or_none_installed props :
  no_explicit_app props →
  (∀ app, installed_apps canOpenURL = [app] →
     getApp canOpenURL showActionSheetWithOptions (OObject props) =
     (probes, Resolved (JStr app)))
  ∧ (installed_apps canOpenURL = [] →
     openInbox canOpenURL showActionSheetWithOptions openURL ns (OObject props) =
       (probes, Rejected (EmailException no_app_message))
     ∧ openComposer canOpenURL showActionSheetWithOptions openURL ns
         (OObject props) =
       (probes, Rejected (EmailException no_app_message)))
  ∧ Forall (fun e => ¬ is_picker e) probes.
Proof.
  intros Hno. split_and!.
  - intros app Hone. rewrite (getApp_few _ Hno), Hone; [done|].
    rewrite Hone. simpl. lia.
  - intros Hnone.
    assert (getApp canOpenURL showActionSheetWithOptions (OObject props) =
            (probes, Rejected (EmailException no_app_message))) as H.
    { rewrite (getApp_few _ Hno), Hnone; [done|]. rewrite Hnone. simpl. lia. }
    split; [by apply openInbox_rejected|by apply openComposer_rejected].
  - apply probes_no_picker.
Qed.

(** C7: without an explicit app and with two or more installed apps, the
    sheet is shown after the probes, with the installed apps' titles in
    registry order followed by the cancel label, the cancel entry being the
    last; the index of an app resolves to the app at that position of the
    installed list, and the cancel index makes [openInbox] and
    [openComposer] fail with the no-app error. *)
Theorem C7_picker props :
  no_explicit_app props → 2 ≤ length (installed_apps canOpenURL) →
  let config := options_sheet canOpenURL props in
  sheet_options config =
    map title_of (installed_apps canOpenURL) ++
    [default_to (JStr "Cancel") (opt_get props "cancelLabel")]
  ∧ cancelButtonIndex config = Z.of_nat (length (installed_apps canOpenURL))
  ∧ (∃ outcome,
       getApp canOpenURL showActionSheetWithOptions (OObject props) =
       (probes ++ [ShowActionSheet config], outcome))
  ∧ (∀ (i : nat) app,
       installed_apps canOpenURL !! i = Some app →
       showActionSheetWithOptions config = Z.of_nat i →
       getApp canOpenURL showActionSheetWithOptions (OObject props) =
       (probes ++ [ShowActionSheet config], Resolved (JStr app)))
  ∧ (showActionSheetWithOptions config = cancelButtonIndex config →
     openInbox canOpenURL showActionSheetWithOptions openURL ns (OObject props) =
       (probes ++ [ShowActionSheet config],
        Rejected (EmailException no_app_message))
     ∧ openComposer canOpenURL showActionSheetWithOptions openURL ns
         (OObject props) =
       (probes ++ [ShowActionSheet config],
        Rejected (EmailException no_app_message))).
Proof.
  intros Hno Hlen config.
  pose proof (getApp_many _ Hno Hlen) as H. cbv zeta in H. fold config in H.
  split_and!; [done|done|by eexists|..].
  - intros i app Hi Hpress. rewrite H, Hpress.
    apply lookup_lt_Some in Hi as Hlt.
    destruct (Z.eqb_spec (Z.of_nat i) (cancelButtonIndex config)) as [E|_].
    { unfold config, options_sheet, picker_sheet in E. simpl in E. lia. }
    by rewrite (at_index_lookup _ _ _ Hi).
  - intros Hpress. rewrite Hpress, Z.eqb_refl in H.
    split; [by apply openInbox_rejected|by apply openComposer_rejected].
Qed.

(** C8: after a resolution, [openInbox] calls the launcher once, with the
    registry scheme of the resolved app and nothing more, and
    [openComposer] calls it once with the prefix followed by the compose
    URL, the prefix being [mailto:] for apple-mail and the registry scheme
    for every other app. *)
Theorem C8_launch_url options t app :
  getApp canOpenURL showActionSheetWithOptions options = (t, Resolved app) →
  ∃ props name scheme,
    options = OObject props ∧ app = JStr name ∧
    own prefixes name = Some scheme ∧
    Forall (fun e => ¬ is_launch e) t ∧
    openInbox canOpenURL showActionSheetWithOptions openURL ns options =
      (t ++ [OpenURL (JStr scheme)], launched openURL (JStr scheme)) ∧
    let url :=
      JStr ((if String.eqb name "apple-mail" then "mailto:" else scheme) +:+
            getUrlParams ns app props) in
    openComposer canOpenURL showActionSheetWithOptions openURL ns options =
      (t ++ [OpenURL url], launched openURL url).
Proof.
  intros H.
  destruct (getApp_resolved _ _ _ H) as (props & name & scheme & -> & -> & _ & Hs & Ht).
  exists props, name, scheme. split_and!; [done..| |].
  - by apply (openInbox_resolved _ _ name).
  - by apply openComposer_resolved.
Qed.

Lemma opt_get_insert_ne props key key' v :
  key ≠ key' → opt_get (<[key := v]> props) key' = opt_get props key'.
Proof. intros H. unfold opt_get. by rewrite lookup_insert_ne. Qed.

Lemma opt_get_delete_ne (props : gmap string jsval) key key' :
  key ≠ key' → opt_get (delete key props) key' = opt_get props key'.
Proof. intros H. unfold opt_get. by rewrite lookup_delete_ne. Qed.

(** [getUrlParams] never reads the [app] property. *)
Lemma getUrlParams_ext app (options1 options2 : gmap string jsval) :
  (∀ key, key ≠ "app" → opt_get options1 key = opt_get options2 key) →
  getUrlParams ns app options1 = getUrlParams ns app options2.
Proof.
  intros Hagree. unfold getUrlParams.
  destruct (own uriParams (to_string ns app)) as [appParms|] eqn:Hd; [|done].
  rewrite !url_params_flat_map. unfold url_path.
  apply own_elem_of in Hd.
  repeat (apply elem_of_cons in Hd as [Hd|Hd]; [injection Hd as _ ->|]);
    [..|by apply elem_of_nil in Hd];
    destruct (strict_eq app (JStr "apple-mail")); simpl;
    by rewrite !Hagree.
Qed.

(** Two bundles without an explicit app that agree on every other property
    are resolved and opened in the same way. *)
Lemma no_explicit_agree props1 props2 :
  no_explicit_app props1 → no_explicit_app props2 →
  (∀ key, key ≠ "app" → opt_get props1 key = opt_get props2 key) →
  getApp canOpenURL showActionSheetWithOptions (OObject props1) =
  getApp canOpenURL showActionSheetWithOptions (OObject props2)
  ∧ openInbox canOpenURL showActionSheetWithOptions openURL ns (OObject props1) =
    openInbox canOpenURL showActionSheetWithOptions openURL ns (OObject props2)
  ∧ openComposer canOpenURL showActionSheetWithOptions openURL ns
      (OObject props1) =
    openComposer canOpenURL showActionSheetWithOptions openURL ns
      (OObject props2).
Proof.
  intros H1 H2 Hagree.
  assert (getApp canOpenURL showActionSheetWithOptions (OObject props1) =
          getApp canOpenURL showActionSheetWithOptions (OObject props2)) as E.
  { rewrite (getApp_no_explicit _ H1), (getApp_no_explicit _ H2).
    by rewrite !Hagree. }
  split_and!; [done|unfold openInbox; by rewrite E|].
  unfold openComposer. rewrite E.
  destruct (getApp _ _ (OObject props2)) as [t [app|e]]; [|done].
  cbn [bind props_of]. by rewrite (getUrlParams_ext _ _ _ Hagree).
Qed.

(** Without an explicit app the run starts with the probes, and does not end
    in one of the two invalid-options errors. *)
Lemma no_explicit_probes props :
  no_explicit_app props →
  ∃ rest outcome,
    getApp canOpenURL showActionSheetWithOptions (OObject props) =
      (probes ++ rest, outcome)
    ∧ outcome ≠ Rejected (EmailException not_an_object_message)
    ∧ outcome ≠ Rejected (EmailException unknown_app_message).
Proof.
  intros Hno.
  destruct (Nat.lt_ge_cases (length (installed_apps canOpenURL)) 2)
    as [Hlen|Hlen].
  - rewrite (getApp_few _ Hno Hlen). exists []. eexists.
    split; [by rewrite app_nil_r|].
    by destruct (installed_apps canOpenURL).
  - rewrite (getApp_many _ Hno Hlen). do 2 eexists. split; [done|].
    destruct (_ =? _)%Z; [done|]. by destruct (at_index _ _).
Qed.

(** C9: a bundle whose [app] is the empty string is handled exactly as the
    same bundle without [app], or with [app] null: [getApp], [openInbox]
    and [openComposer] make the same calls and settle alike; the run starts
    with one probe per registered app in registry order and does not fail
    with an invalid-options error. *)
Theorem C9_empty_app_is_no_app props :
  (getApp canOpenURL showActionSheetWithOptions
     (OObject (<["app" := JStr ""]> props)) =
   getApp canOpenURL showActionSheetWithOptions (OObject (delete "app" props))
   ∧ openInbox canOpenURL showActionSheetWithOptions openURL ns
       (OObject (<["app" := JStr ""]> props)) =
     openInbox canOpenURL showActionSheetWithOptions openURL ns
       (OObject (delete "app" props))
   ∧ openComposer canOpenURL showActionSheetWithOptions openURL ns
       (OObject (<["app" := JStr ""]> props)) =
     openComposer canOpenURL showActionSheetWithOptions openURL ns
       (OObject (delete "app" props)))
  ∧ (getApp canOpenURL showActionSheetWithOptions
       (OObject (<["app" := JStr ""]> props)) =
     getApp canOpenURL showActionSheetWithOptions
       (OObject (<["app" := JNull]> props))
     ∧ openInbox canOpenURL showActionSheetWithOptions openURL ns
         (OObject (<["app" := JStr ""]> props)) =
       openInbox canOpenURL showActionSheetWithOptions openURL ns
         (OObject (<["app" := JNull]> props))
     ∧ openComposer canOpenURL showActionSheetWithOptions openURL ns
         (OObject (<["app" := JStr ""]> props)) =
       openComposer canOpenURL showActionSheetWithOptions openURL ns
         (OObject (<["app" := JNull]> props)))
  ∧ ∃ rest outcome,
      getApp canOpenURL showActionSheetWithOptions
        (OObject (<["app" := JStr ""]> props)) = (probes ++ rest, outcome)
      ∧ outcome ≠ Rejected (EmailException not_an_object_message)
      ∧ outcome ≠ Rejected (EmailException unknown_app_message).
Proof.
  assert (no_explicit_app (<["app" := JStr ""]> props)) as Hempty
    by (unfold no_explicit_app, opt_get; by rewrite lookup_insert_eq).
  assert (no_explicit_app (<["app" := JNull]> props)) as Hnull
    by (unfold no_explicit_app, opt_get; by rewrite lookup_insert_eq).
  assert (no_explicit_app (delete "app" props)) as Habsent
    by (unfold no_explicit_app, opt_get; by rewrite lookup_delete_eq).
  split; [|split].
  - apply no_explicit_agree; [done..|]. intros key Hkey.
    by rewrite opt_get_insert_ne, opt_get_delete_ne.
  - apply no_explicit_agree; [done..|]. intros key Hkey.
    by rewrite !opt_get_insert_ne.
  - by apply no_explicit_probes.
Qed.

(** C10: every value that [getApp] returns is the name of an entry of
    [prefixes], so the lookup [prefixes[app]] of [openInbox] and
    [openComposer] yields that entry's scheme and is never [undefined]. *)
Theorem C10_resolved_app_registered options t app :
  getApp canOpenURL showActionSheetWithOptions options = (t, Resolved app) →
  ∃ name scheme,
    app = JStr name ∧ name ∈ keys prefixes ∧
    own prefixes name = Some scheme ∧
    js_get prefixes (to_string ns app) = JStr scheme ∧
    js_get prefixes (to_string ns app) ≠ JUndefined.
Proof.
  intros H.
  destruct (getApp_resolved _ _ _ H) as (_ & name & scheme & _ & -> & Hk & Hs & _).
  exists name, scheme. cbn [to_string]. rewrite (js_get_own _ _ _ Hs).
  by split_and!.
Qed.

End Resolver.

(** C1, as stated for every options bundle, fails on a bundle that carries
    a [path] property: the reduction also visits the dialect's [path] key,
    so gmail with [{path: 'x'}] gives [co?co=x], where the claim has the
    bare [co?]. *)
Lemma C1_path_property_leaks :
  ¬ (∀ app dialect options,
       own uriParams app = Some dialect →
       getUrlParams no_source (JStr app) options =
       spec_buildComposeUrl no_source app dialect options).
Proof.
  intros H.
  specialize (H "gmail" _ {[ "path" := JStr "x" ]} eq_refl).
  by vm_compute in H.
Qed.

(** The example of C1: gmail with [{to: 'a@b.com', subject: 'Hi'}]. *)
Lemma C1_getUrlParams_spec_witness :
  getUrlParams no_source (JStr "gmail")
    (<["to" := JStr "a@b.com"]> {[ "subject" := JStr "Hi" ]})
  = "co?to=a@b.com&subject=Hi".
Proof.
  rewrite (C1_getUrlParams_spec no_source "gmail"
             [ ("path", "co"); ("to", "to"); ("cc", "cc"); ("bcc", "bcc");
               ("subject", "subject"); ("body", "body") ]);
    [ by vm_compute | reflexivity | intros _; by vm_compute ].
Defined.

(** The examples of C2: apple-mail carries the recipient in the path, and
    gmail has the fixed path [co]. *)
Lemma C2_path_segment_witness :
  getUrlParams no_source (JStr "apple-mail")
    (<["to" := JStr "a@b.com"]> {[ "subject" := JStr "Hi" ]})
  = "a@b.com?subject=Hi"
  ∧ ∃ path,
      own [ ("path", "co"); ("to", "to"); ("cc", "cc"); ("bcc", "bcc");
            ("subject", "subject"); ("body", "body") ] "path" = Some path
      ∧ getUrlParams no_source (JStr "gmail") {[ "subject" := JStr "Hi" ]} =
        path +:+ "?" +:+
        String.concat "&"
          (url_params no_source
             [ ("path", "co"); ("to", "to"); ("cc", "cc"); ("bcc", "bcc");
               ("subject", "subject"); ("body", "body") ]
             {[ "subject" := JStr "Hi" ]}).
Proof.
  split.
  - pose proof (C2_path_segment no_source "apple-mail" _
                  (<["to" := JStr "a@b.com"]> {[ "subject" := JStr "Hi" ]})
                  eq_refl) as [H _].
    rewrite (H eq_refl). by vm_compute.
  - pose proof (C2_path_segment no_source "gmail" _
                  {[ "subject" := JStr "Hi" ]} eq_refl) as [_ H].
    apply H. discriminate.
Defined.

(** * Examples *)

(** A registered app whose probe is rejected counts as not installed. *)
Lemma isAppInstalled_rejected_probe :
  isAppInstalled broken_probe "gmail" =
  ([CanOpenURL (JStr "googlegmail://")], Resolved false).
Proof. reflexivity. Qed.

(** An unknown id that no object inherits is answered without a probe. *)
Lemma isAppInstalled_yahoo :
  isAppInstalled (device ["googlegmail://"]) "yahoo" = ([], Resolved false).
Proof. reflexivity. Qed.

(** An unknown explicit app is refused before any probe. *)
Lemma getApp_yahoo :
  getApp (device ["googlegmail://"]) (presses 0)
    (OObject {[ "app" := JStr "yahoo" ]}) =
  ([], Rejected (EmailException unknown_app_message)).
Proof. by vm_compute. Qed.

(** C3 on a device with no mail app at all: gmail is still returned. *)
Lemma C3_explicit_app_no_probe_witness :
  getApp (device []) (presses 0) (OObject {[ "app" := JStr "gmail" ]}) =
  ([], Resolved (JStr "gmail")).
Proof.
  apply (C3_explicit_app_no_probe (device []) (presses 0)
           {[ "app" := JStr "gmail" ]} "gmail").
  - reflexivity.
  - apply list_elem_of_In. simpl. tauto.
Defined.

(** C6 on a device with Spark only, and on a device with no mail app. *)
Lemma C6_one_or_none_installed_witness :
  getApp (device ["readdle-spark://"]) (presses 0) (OObject ∅) =
    (probes, Resolved (JStr "spark"))
  ∧ openInbox (device []) (presses 0) launches no_source (OObject ∅) =
    (probes, Rejected (EmailException no_app_message))
  ∧ openComposer (device []) (presses 0) launches no_source (OObject ∅) =
    (probes, Rejected (EmailException no_app_message)).
Proof.
  split.
  - destruct (C6_one_or_none_installed (device ["readdle-spark://"])
                (presses 0) launches no_source ∅) as (Hone & _ & _).
    + reflexivity.
    + apply Hone. by vm_compute.
  - destruct (C6_one_or_none_installed (device []) (presses 0)
                launches no_source ∅) as (_ & Hnone & _).
    + reflexivity.
    + apply Hnone. by vm_compute.
Defined.

(** C7 on a device with Gmail and Outlook: the user presses the second
    button, or the cancel button. *)
Lemma C7_picker_witness :
  sheet_options (options_sheet (device ["googlegmail://"; "ms-outlook://"]) ∅) =
    [JStr "Gmail"; JStr "Outlook"; JStr "Cancel"]
  ∧ getApp (device ["googlegmail://"; "ms-outlook://"]) (presses 1) (OObject ∅) =
    (probes ++
     [ShowActionSheet
        (options_sheet (device ["googlegmail://"; "ms-outlook://"]) ∅)],
     Resolved (JStr "outlook"))
  ∧ openInbox (device ["googlegmail://"; "ms-outlook://"]) (presses 2)
      launches no_source (OObject ∅) =
    (probes ++
     [ShowActionSheet
        (options_sheet (device ["googlegmail://"; "ms-outlook://"]) ∅)],
     Rejected (EmailException no_app_message)).
Proof.
  split_and!.
  - destruct (C7_picker (device ["googlegmail://"; "ms-outlook://"])
                (presses 1) launches no_source ∅) as (Hsheet & _).
    + reflexivity.
    + vm_compute. lia.
    + rewrite Hsheet. by vm_compute.
  - destruct (C7_picker (device ["googlegmail://"; "ms-outlook://"])
                (presses 1) launches no_source ∅) as (_ & _ & _ & Hpick & _).
    + reflexivity.
    + vm_compute. lia.
    + apply (Hpick 1%nat); by vm_compute.
  - destruct (C7_picker (device ["googlegmail://"; "ms-outlook://"])
                (presses 2) launches no_source ∅) as (_ & _ & _ & _ & Hcancel).
    + reflexivity.
    + vm_compute. lia.
    + apply Hcancel. by vm_compute.
Defined.

(** C8 for apple-mail named explicitly. *)
Lemma C8_launch_url_witness :
  openInbox (device []) (presses 0) launches no_source
    (OObject (<["app" := JStr "apple-mail"]>
                (<["to" := JStr "a@b.com"]> {[ "subject" := JStr "Hi" ]}))) =
    ([OpenURL (JStr "message://")], Resolved tt)
  ∧ openComposer (device []) (presses 0) launches no_source
      (OObject (<["app" := JStr "apple-mail"]>
                  (<["to" := JStr "a@b.com"]> {[ "subject" := JStr "Hi" ]}))) =
    ([OpenURL (JStr "mailto:a@b.com?subject=Hi")], Resolved tt).
Proof.
  destruct (C8_launch_url (device []) (presses 0) launches no_source
              (OObject (<["app" := JStr "apple-mail"]>
                          (<["to" := JStr "a@b.com"]>
                             {[ "subject" := JStr "Hi" ]})))
              [] (JStr "apple-mail"))
    as (props & name & scheme & Hprops & Hname & Hscheme & _ & Hinbox & Hcomposer).
  - by vm_compute.
  - injection Hprops as <-. injection Hname as <-.
    injection Hscheme as <-. split.
    + rewrite Hinbox. by vm_compute.
    + rewrite Hcomposer. by vm_compute.
Defined.

(** C10 on a device with Outlook only. *)
Lemma C10_resolved_app_registered_witness :
  ∃ name scheme,
    JStr "outlook" = JStr name ∧ name ∈ keys prefixes ∧
    own prefixes name = Some scheme ∧
    js_get prefixes (to_string no_source (JStr "outlook")) = JStr scheme ∧
    js_get prefixes (to_string no_source (JStr "outlook")) ≠ JUndefined.
Proof.
  apply (C10_resolved_app_registered (device ["ms-outlook://"]) (presses 0)
           no_source (OObject ∅) probes (JStr "outlook")).
  by vm_compute.
Defined.

(** * Further properties of the builder *)

Section BuilderFacts.

Variable ns : string → string.

Lemma append_cons_nonempty s1 c s2 : s1 +:+ String c s2 ≠ "".
Proof. by destruct s1. Qed.

Lemma flat_map_all_nil {A B} (f : A → list B) (l : list A) :
  (∀ x, x ∈ l → f x = []) → flat_map f l = [].
Proof.
  induction l as [|x l IH]; intros H; simpl; [done|].
  rewrite (H x) by left. apply IH. intros y Hy. apply H. by right.
Qed.

(** X1: [getUrlParams] returns the empty string exactly for an app that has
    no dialect entry and is no inherited name; for every app with a dialect
    the result is not empty (it holds at least the question mark). *)
Theorem X1_getUrlParams_empty_iff_unknown app options :
  getUrlParams ns (JStr app) options = "" ↔
  own uriParams app = None ∧ inherited app = false.
Proof.
  unfold getUrlParams. change (to_string ns (JStr app)) with app.
  destruct (own uriParams app) as [appParms|].
  - split; [|by intros [? _]].
    intros H. by apply append_cons_nonempty in H.
  - destruct (inherited app); [|done].
    split; [|by intros [_ ?]].
    intros H. by apply append_cons_nonempty in H.
Qed.

(** X2: when the bundle has no non-empty value under any key of the app's
    dialect, [getUrlParams] is the path followed by a bare question mark:
    the dialect's [path] for every app but apple-mail, and the value of [to]
    (or nothing) for apple-mail. *)
Theorem X2_no_field_supplied app dialect options :
  own uriParams app = Some dialect →
  (∀ key, key ∈ keys dialect → to_boolean (opt_get options key) = false) →
  getUrlParams ns (JStr app) options =
  spec_path ns app dialect options +:+ "?".
Proof.
  intros Hd Hnone. rewrite (getUrlParams_own _ _ _ _ Hd), url_params_flat_map.
  rewrite flat_map_all_nil by (intros key Hkey; by rewrite (Hnone key Hkey)).
  cbn [String.concat]. f_equal.
  each_entry Hd; unfold spec_path, url_path, js_or, supplied; simpl;
    try reflexivity.
  by destruct (to_boolean (opt_get options "to")).
Qed.

(** X3: [getUrlParams] reads the bundle at the properties path, to, cc, bcc,
    subject and body only: two bundles that agree on these six give the same
    result, for every app value. *)
Theorem X3_getUrlParams_reads_six_keys app
    (options1 options2 : gmap string jsval) :
  (∀ key, key ∈ ["path"; "to"; "cc"; "bcc"; "subject"; "body"] →
     opt_get options1 key = opt_get options2 key) →
  getUrlParams ns app options1 = getUrlParams ns app options2.
Proof.
  intros Hagree. unfold getUrlParams.
  destruct (own uriParams (to_string ns app)) as [appParms|] eqn:Hd; [|done].
  rewrite !url_params_flat_map. unfold url_path.
  apply own_elem_of in Hd.
  repeat (apply elem_of_cons in Hd as [Hd|Hd]; [injection Hd as _ ->|]);
    [..|by apply elem_of_nil in Hd];
    destruct (strict_eq app (JStr "apple-mail")); simpl;
    rewrite ?(Hagree "path"), ?(Hagree "to"), ?(Hagree "cc"),
      ?(Hagree "bcc"), ?(Hagree "subject"), ?(Hagree "body");
    try reflexivity;
    apply list_elem_of_In; simpl; tauto.
Qed.

End BuilderFacts.

(** * Further properties of the prober and the resolver *)

Section ResolverFacts.

Variable canOpenURL : jsval → option bool.
Variable showActionSheetWithOptions : sheet → Z.
Variable openURL : jsval → bool.
Variable ns : string → string.

Lemma installed_apps_probed app :
  app ∈ installed_apps canOpenURL →
  ∃ scheme, own prefixes app = Some scheme ∧
            canOpenURL (JStr scheme) = Some true.
Proof.
  unfold installed_apps. rewrite list_elem_of_In, filter_In.
  intros [_ H]. unfold installed in H.
  destruct (own prefixes app) as [scheme|]; [|done].
  exists scheme. split; [done|].
  by destruct (canOpenURL (JStr scheme)) as [[]|].
Qed.

Lemma at_index_out_of_range (arr : list string) i :
  (i < 0 ∨ Z.of_nat (length arr) ≤ i)%Z → at_index arr i = JUndefined.
Proof.
  intros H. unfold at_index. destruct (Z.ltb_spec i 0); [done|].
  rewrite lookup_ge_None_2; [done|lia].
Qed.

Lemma probes_nonempty : probes ≠ [].
Proof. done. Qed.

(** X4: for a registered app [isAppInstalled] calls the probe once, with the
    app's registry scheme, and resolves to the probe's answer, or to false
    when the probe rejects. *)
Theorem X4_isAppInstalled_registered app scheme :
  own prefixes app = Some scheme →
  isAppInstalled canOpenURL app =
  ([CanOpenURL (JStr scheme)],
   Resolved (match canOpenURL (JStr scheme) with
             | Some isSupported => isSupported
             | None => false
             end)).
Proof.
  intros H. rewrite (isAppInstalled_known _ _ _ H). unfold installed.
  by rewrite H.
Qed.


(** X6: [askAppChoice] always resolves, and its answer is [null],
    [undefined] or a registered app whose probe answered yes: it never
    returns an app that did not probe as installed. *)
Theorem X6_askAppChoice_answer title message cancelLabel removeText :
  ∃ t answer,
    askAppChoice canOpenURL showActionSheetWithOptions
      title message cancelLabel removeText = (t, Resolved answer)
    ∧ (answer = JNull ∨ answer = JUndefined ∨
       ∃ app scheme, answer = JStr app ∧ own prefixes app = Some scheme ∧
                     canOpenURL (JStr scheme) = Some true).
Proof.
  destruct (Nat.lt_ge_cases (length (installed_apps canOpenURL)) 2)
    as [Hlen|Hlen].
  - rewrite askAppChoice_few by done. do 2 eexists.
    split; [done|].
    destruct (at_index_cases (installed_apps canOpenURL) 0)
      as [->|(app & -> & Hin)]; [by left|].
    unfold js_or.
    rewrite (key_truthy app) by (by eapply installed_apps_keys).
    destruct (installed_apps_probed _ Hin) as (scheme & ? & ?).
    right. right. by exists app, scheme.
  - rewrite askAppChoice_many by done. do 2 eexists.
    split; [done|].
    destruct (_ =? _)%Z; [by left|].
    destruct (at_index_cases (installed_apps canOpenURL)
                (showActionSheetWithOptions
                   (picker_sheet canOpenURL title message cancelLabel
                      removeText)))
      as [->|(app & -> & Hin)]; [right; by left|].
    destruct (installed_apps_probed _ Hin) as (scheme & ? & ?).
    right. right. by exists app, scheme.
Qed.

(** X7: [askAppChoice] first probes every registered app, in registry
    order, whatever the answers; the sheet is shown after the probes exactly
    when two or more apps are installed, and then once. *)
Theorem X7_askAppChoice_calls title message cancelLabel removeText :
  fst (askAppChoice canOpenURL showActionSheetWithOptions
         title message cancelLabel removeText) =
  if decide (2 ≤ length (installed_apps canOpenURL))
  then probes ++
       [ShowActionSheet
          (picker_sheet canOpenURL title message cancelLabel removeText)]
  else probes.
Proof.
  case_decide as Hlen.
  - by rewrite askAppChoice_many by done.
  - rewrite askAppChoice_few; [done|lia].
Qed.

(** X8: when the sheet calls back with an index that is no button of the
    sheet (negative, or past the cancel entry), [askAppChoice] resolves to
    [undefined], and [getApp] without an explicit app fails with the no-app
    error. *)
Theorem X8_index_out_of_range props :
  no_explicit_app props → 2 ≤ length (installed_apps canOpenURL) →
  let config := options_sheet canOpenURL props in
  (showActionSheetWithOptions config < 0 ∨
   cancelButtonIndex config < showActionSheetWithOptions config)%Z →
  askAppChoice canOpenURL showActionSheetWithOptions
    (opt_get props "title") (opt_get props "message")
    (opt_get props "cancelLabel") (opt_get props "removeText") =
    (probes ++ [ShowActionSheet config], Resolved JUndefined)
  ∧ getApp canOpenURL showActionSheetWithOptions (OObject props) =
    (probes ++ [ShowActionSheet config],
     Rejected (EmailException no_app_message)).
Proof.
  intros Hno Hlen config Hrange.
  assert (cancelButtonIndex config =
          Z.of_nat (length (installed_apps canOpenURL))) as Hcancel by done.
  split.
  - rewrite askAppChoice_many by done.
    fold (options_sheet canOpenURL props). fold config.
    destruct (Z.eqb_spec (showActionSheetWithOptions config)
                (cancelButtonIndex config)); [lia|].
    rewrite at_index_out_of_range; [done|lia].
  - rewrite getApp_many by done. cbv zeta. fold config.
    destruct (_ =? _)%Z; [done|].
    rewrite at_index_out_of_range; [done|lia].
Qed.


(** X10: on an object, [getApp] fails with the unknown-app exception, before
    any call, exactly when the [app] property is truthy and is not one of
    the six registered names (a name inherited from [Object.prototype] is
    refused like any other). *)
Theorem X10_getApp_unknown_app_iff props :
  getApp canOpenURL showActionSheetWithOptions (OObject props) =
    ([], Rejected (EmailException unknown_app_message))
  ↔ to_boolean (opt_get props "app") = true ∧
    ∀ name, name ∈ keys prefixes → opt_get props "app" ≠ JStr name.
Proof.
  split; [|intros [? ?]; by apply getApp_unknown_app].
  intros H.
  destruct (to_boolean (opt_get props "app")) eqn:Ht.
  - split; [done|]. intros name Hkey Happ.
    rewrite (getApp_explicit _ _ _ _ Happ Hkey) in H. discriminate H.
  - destruct (Nat.lt_ge_cases (length (installed_apps canOpenURL)) 2)
      as [Hlen|Hlen].
    + rewrite getApp_few in H by done. by injection H.
    + rewrite getApp_many in H by done. by injection H.
Qed.

Lemma getApp_cases options :
  (∃ e, getApp canOpenURL showActionSheetWithOptions options =
          ([], Rejected e) ∧ e ≠ NativeError)
  ∨ (∃ props name,
       options = OObject props ∧ name ∈ keys prefixes ∧
       getApp canOpenURL showActionSheetWithOptions options =
         ([], Resolved (JStr name)))
  ∨ (∃ props t outcome,
       options = OObject props ∧ no_explicit_app props ∧
       getApp canOpenURL showActionSheetWithOptions options = (t, outcome) ∧
       (t = probes ∨
        t = probes ++ [ShowActionSheet (options_sheet canOpenURL props)]) ∧
       (outcome = Rejected (EmailException no_app_message) ∨
        ∃ name, name ∈ keys prefixes ∧ outcome = Resolved (JStr name))).
Proof.
  destruct options as [| |b|s| |props].
  1-2: left; by eexists.
  - left. destruct b; by eexists.
  - left. unfold getApp. cbn [options_truthy typeof].
    destruct (negb (String.eqb s "")); by eexists.
  - left. by eexists.
  - destruct (to_boolean (opt_get props "app")) eqn:Ht.
    + destruct (indexOf (keys prefixes) (opt_get props "app") <? 0)%Z eqn:E.
      * left. rewrite getApp_object, Ht, (opt_get_truthy_in _ _ Ht), E.
        by eexists.
      * apply indexOf_found in E as (name & Hname & Hkey).
        right. left. exists props, name. split_and!; [done..|].
        by apply getApp_explicit.
    + right. right.
      pose proof (installed_apps_keys canOpenURL) as Hkeys.
      destruct (Nat.lt_ge_cases (length (installed_apps canOpenURL)) 2)
        as [Hlen|Hlen].
      * exists props. do 2 eexists.
        split_and!; [done|done|by apply getApp_few|by left|].
        destruct (installed_apps canOpenURL) as [|name rest]; [by left|].
        right. exists name. split; [apply Hkeys; left|done].
      * exists props. do 2 eexists.
        split_and!; [done|done|by apply getApp_many|by right|].
        cbv zeta. destruct (_ =? _)%Z; [by left|].
        destruct (at_index_cases (installed_apps canOpenURL)
                    (showActionSheetWithOptions
                       (options_sheet canOpenURL props)))
          as [->|(name & -> & Hin)]; [by left|].
        right. exists name. split; [by apply Hkeys|done].
Qed.

Lemma getApp_trace options :
  ∃ t outcome,
    getApp canOpenURL showActionSheetWithOptions options = (t, outcome)
    ∧ Forall (fun e => ¬ is_launch e) t.
Proof.
  destruct (getApp_cases options)
    as [(e & H & He)|[(props & name & _ & _ & H)
                      |(props & t & outcome & _ & _ & H & Ht & Ho)]];
    rewrite H; do 2 eexists; (split; [reflexivity|]); [done|done|].
  destruct Ht as [->| ->]; [apply probes_no_launch|].
  apply Forall_app. split; [apply probes_no_launch|].
  apply Forall_singleton. intros [].
Qed.

(** X11: whatever its argument, [getApp] never calls the launcher, never
    rejects with an error of React Native (a rejected probe is absorbed), and
    makes no call at all, or the six probes, or the six probes followed by
    one sheet. *)
Theorem X11_getApp_calls options :
  ∃ t outcome,
    getApp canOpenURL showActionSheetWithOptions options = (t, outcome)
    ∧ Forall (fun e => ¬ is_launch e) t
    ∧ outcome ≠ Rejected NativeError
    ∧ (t = [] ∨ t = probes ∨ ∃ config, t = probes ++ [ShowActionSheet config]).
Proof.
  destruct (getApp_cases options)
    as [(e & H & He)|[(props & name & _ & _ & H)
                      |(props & t & outcome & _ & _ & H & Ht & Ho)]];
    rewrite H; do 2 eexists; (split; [reflexivity|]).
  - split_and!; [done|congruence|by left].
  - split_and!; [done|done|by left].
  - split_and!.
    + destruct Ht as [->| ->]; [apply probes_no_launch|].
      apply Forall_app. split; [apply probes_no_launch|].
      apply Forall_singleton. intros [].
    + destruct Ho as [->|(name & _ & ->)]; done.
    + destruct Ht as [->| ->]; [right; by left|right; right; by eexists].
Qed.

(** X12: [openInbox] and [openComposer] resolve alike.  When [getApp]
    fails, both fail with the same error after the same calls and the
    launcher is not called; when it succeeds, each makes the calls of
    [getApp] followed by exactly one call of the launcher, and settles as
    the launcher does. *)
Theorem X12_open_after_resolution options :
  (∃ t e,
     getApp canOpenURL showActionSheetWithOptions options = (t, Rejected e)
     ∧ openInbox canOpenURL showActionSheetWithOptions openURL ns options =
       (t, Rejected e)
     ∧ openComposer canOpenURL showActionSheetWithOptions openURL ns options =
       (t, Rejected e)
     ∧ Forall (fun e => ¬ is_launch e) t)
  ∨ (∃ t app inboxUrl composeUrl,
       getApp canOpenURL showActionSheetWithOptions options = (t, Resolved app)
       ∧ openInbox canOpenURL showActionSheetWithOptions openURL ns options =
         (t ++ [OpenURL inboxUrl], launched openURL inboxUrl)
       ∧ openComposer canOpenURL showActionSheetWithOptions openURL ns options =
         (t ++ [OpenURL composeUrl], launched openURL composeUrl)
       ∧ Forall (fun e => ¬ is_launch e) t).
Proof.
  destruct (getApp_trace options) as (t & outcome & H & Ht).
  destruct outcome as [app|e].
  - right.
    destruct (getApp_resolved _ _ ns _ _ _ H)
      as (props & name & scheme & -> & -> & _ & Hs & _).
    exists t, (JStr name). do 2 eexists. split_and!; [done| | |done].
    + by apply (openInbox_resolved _ _ _ _ _ _ name).
    + by apply openComposer_resolved.
  - left. exists t, e. split_and!; [done| | |done].
    + by apply openInbox_rejected.
    + by apply openComposer_rejected.
Qed.

(** X13: every app that [getApp] returns also has a title and a dialect:
    the three tables are read at keys they all have, so [openComposer] never
    takes the early return of [getUrlParams] for an app without dialect. *)
Theorem X13_resolved_app_has_title_and_dialect options t app :
  getApp canOpenURL showActionSheetWithOptions options = (t, Resolved app) →
  ∃ name title dialect,
    app = JStr name ∧ own titles name = Some title ∧
    own uriParams name = Some dialect ∧
    getUrlParams ns app (props_of options) ≠ "".
Proof.
  intros H.
  destruct (getApp_resolved _ _ ns _ _ _ H)
    as (props & name & scheme & -> & -> & Hkey & _ & _).
  assert (∃ title dialect, own titles name = Some title ∧
                           own uriParams name = Some dialect)
    as (title & dialect & Htitle & Hd).
  { repeat (apply elem_of_cons in Hkey as [->|Hkey];
            [by do 2 eexists|]).
    by apply elem_of_nil in Hkey. }
  exists name, title, dialect. split_and!; [done..|].
  rewrite (getUrlParams_own _ _ _ _ Hd). apply append_cons_nonempty.
Qed.

(** X14: end to end, when [getApp] resolves an app and the bundle carries
    no non-empty [path] property, [openComposer] launches the prefix
    ([mailto:] for apple-mail, the registry scheme otherwise) followed by the
    URL that the specification's builder gives for the app's dialect. *)
Theorem X14_openComposer_url props t name scheme dialect :
  getApp canOpenURL showActionSheetWithOptions (OObject props) =
    (t, Resolved (JStr name)) →
  own prefixes name = Some scheme →
  own uriParams name = Some dialect →
  supplied props "path" = false →
  let url :=
    JStr ((if String.eqb name "apple-mail" then "mailto:" else scheme) +:+
          spec_buildComposeUrl ns name dialect props) in
  openComposer canOpenURL showActionSheetWithOptions openURL ns (OObject props) =
  (t ++ [OpenURL url], launched openURL url).
Proof.
  intros H Hs Hd Hp url.
  assert (getUrlParams ns (JStr name) props =
          spec_buildComposeUrl ns name dialect props) as E.
  { rewrite (getUrlParams_own _ _ _ _ Hd), url_params_flat_map.
    unfold supplied in Hp.
    each_entry Hd; unfold spec_buildComposeUrl, spec_path, spec_pairs,
      supplied, url_path, js_or; simpl; rewrite ?Hp; simpl;
      rewrite ?app_nil_r; try reflexivity.
    by destruct (to_boolean (opt_get props "to")). }
  unfold url. rewrite <- E. by apply openComposer_resolved.
Qed.

(** X15: with an explicit registered app, [openInbox] and [openComposer]
    make one call only, the launch: no probe is made, so the app is opened
    whether or not it is installed. *)
Theorem X15_explicit_app_single_call props name scheme :
  props !! "app" = Some (JStr name) → own prefixes name = Some scheme →
  openInbox canOpenURL showActionSheetWithOptions openURL ns (OObject props) =
    ([OpenURL (JStr scheme)], launched openURL (JStr scheme))
  ∧ ∃ url,
      openComposer canOpenURL showActionSheetWithOptions openURL ns
        (OObject props) = ([OpenURL url], launched openURL url).
Proof.
  intros Happ Hs.
  assert (getApp canOpenURL showActionSheetWithOptions (OObject props) =
          ([], Resolved (JStr name))) as H.
  { apply getApp_explicit.
    - unfold opt_get. by rewrite Happ.
    - apply own_elem_of in Hs. unfold keys.
      apply list_elem_of_In, in_map_iff. exists (name, scheme).
      split; [done|by apply list_elem_of_In]. }
  split.
  - by rewrite (openInbox_resolved _ _ _ _ _ _ name scheme H Hs).
  - eexists. by rewrite (openComposer_resolved _ _ _ _ _ _ _ scheme H Hs).
Qed.

End ResolverFacts.

(** * Examples for the further properties *)

(** X2 for apple-mail with a recipient and nothing else. *)
Lemma X2_no_field_supplied_witness :
  getUrlParams no_source (JStr "apple-mail") {[ "to" := JStr "a@b.com" ]} =
  "a@b.com?".
Proof.
  rewrite (X2_no_field_supplied no_source "apple-mail"
             [ ("cc", "cc"); ("bcc", "bcc"); ("subject", "subject");
               ("body", "body") ]).
  - by vm_compute.
  - reflexivity.
  - intros key Hkey.
    repeat (apply elem_of_cons in Hkey as [->|Hkey]; [by vm_compute|]).
    by apply elem_of_nil in Hkey.
Defined.

(** X3: the properties [app] and [title] of a bundle do not reach the URL. *)
Lemma X3_getUrlParams_reads_six_keys_witness :
  getUrlParams no_source (JStr "gmail")
    (<["app" := JStr "gmail"]>
       (<["title" := JStr "Pick"]> {[ "to" := JStr "a@b.com" ]})) =
  getUrlParams no_source (JStr "gmail") {[ "to" := JStr "a@b.com" ]}.
Proof.
  apply X3_getUrlParams_reads_six_keys.
  intros key Hkey.
  repeat (apply elem_of_cons in Hkey as [->|Hkey]; [by vm_compute|]).
  by apply elem_of_nil in Hkey.
Defined.

(** X4 for gmail on a device whose probe rejects. *)
Lemma X4_isAppInstalled_registered_witness :
  isAppInstalled broken_probe "gmail" =
  ([CanOpenURL (JStr "googlegmail://")], Resolved false).
Proof.
  exact (X4_isAppInstalled_registered broken_probe "gmail" "googlegmail://"
           eq_refl).
Defined.

(** X8 on a device with Gmail and Outlook, the sheet answering 7. *)
Lemma X8_index_out_of_range_witness :
  getApp (device ["googlegmail://"; "ms-outlook://"]) (presses 7) (OObject ∅) =
  (probes ++
   [ShowActionSheet
      (options_sheet (device ["googlegmail://"; "ms-outlook://"]) ∅)],
   Rejected (EmailException no_app_message)).
Proof.
  destruct (X8_index_out_of_range (device ["googlegmail://"; "ms-outlook://"])
              (presses 7) no_source ∅) as [_ H].
  - reflexivity.
  - vm_compute. lia.
  - right. vm_compute. reflexivity.
  - exact H.
Defined.


(** X13 for Spark named explicitly. *)
Lemma X13_resolved_app_has_title_and_dialect_witness :
  ∃ name title dialect,
    JStr "spark" = JStr name ∧ own titles name = Some title ∧
    own uriParams name = Some dialect ∧
    getUrlParams no_source (JStr "spark")
      (props_of (OObject {[ "app" := JStr "spark" ]})) ≠ "".
Proof.
  apply (X13_resolved_app_has_title_and_dialect (device []) (presses 0)
           no_source (OObject {[ "app" := JStr "spark" ]}) []).
  by vm_compute.
Defined.

(** X14 on a device with Spark only. *)
Lemma X14_openComposer_url_witness :
  openComposer (device ["readdle-spark://"]) (presses 0) launches no_source
    (OObject (<["to" := JStr "a@b.com"]> {[ "body" := JStr "Hello" ]})) =
  (probes ++
   [OpenURL (JStr "readdle-spark://compose?recipient=a@b.com&body=Hello")],
   Resolved tt).
Proof.
  rewrite (X14_openComposer_url (device ["readdle-spark://"]) (presses 0)
             launches no_source
             (<["to" := JStr "a@b.com"]> {[ "body" := JStr "Hello" ]})
             probes "spark" "readdle-spark://"
             [ ("path", "compose"); ("to", "recipient"); ("cc", "cc");
               ("bcc", "bcc"); ("subject", "subject"); ("body", "body") ]).
  - by vm_compute.
  - by vm_compute.
  - reflexivity.
  - reflexivity.
  - by vm_compute.
Defined.

(** X15 for Outlook on a device with no mail app. *)
Lemma X15_explicit_app_single_call_witness :
  openInbox (device []) (presses 0) launches no_source
    (OObject {[ "app" := JStr "outlook" ]}) =
  ([OpenURL (JStr "ms-outlook://")], Resolved tt).
Proof.
  destruct (X15_explicit_app_single_call (device []) (presses 0) launches
              no_source {[ "app" := JStr "outlook" ]} "outlook" "ms-outlook://")
    as [H _].
  - reflexivity.
  - reflexivity.
  - exact H.
Defined.
